(** * Étoile Noire backend (main.py): reservations, diagnostics and the
      rule-based chat responder

    A shallow embedding of [main.py].  Python [str] values are sequences of
    Unicode code points; dictionaries with an open key set are finite maps;
    code that raises returns an [outcome]; code that mutates a local object
    while it may raise runs in a small state-and-exception monad.

    Three things that [main.py] imports are not part of the repository's
    sources and are taken as parameters of the handlers that call them:
    [schemas.Reservation], [database.create_document] and
    [database.get_documents]; [StoreAdapter] gives the last one as the
    specification describes it.  [str.lower] is the interpreter's (its
    Unicode case tables are not reproduced here) and is a parameter of the
    responder; [ascii_lower] is what it does on Basic Latin text.  Names of
    fields, keys and collections are [string]s; text is [pystr]. *)

From Stdlib Require Import ZArith NArith List String Ascii Bool Lia.
From stdpp Require Import base option list strings gmap pretty.

Open Scope Z_scope.

(* ===================================================================== *)
(** ** Python strings *)
(* ===================================================================== *)

(** A [str] is a sequence of code points. *)
Definition pystr : Type := list N.

(** [py] reads a literal of this file (UTF-8 bytes, as in [main.py]) as the
    [str] it denotes: sequences of one to four bytes are decoded. *)
Fixpoint py (s : string) : pystr :=
  match s with
  | EmptyString => []
  | String a s1 =>
    let b0 := N_of_ascii a in
    if (b0 <? 128)%N then b0 :: py s1
    else
      match s1 with
      | EmptyString => [b0]
      | String b s2 =>
        let b1 := (N_of_ascii b - 128)%N in
        if (b0 <? 224)%N then ((b0 - 192) * 64 + b1)%N :: py s2
        else
          match s2 with
          | EmptyString => [b0; b1]
          | String c s3 =>
            let b2 := (N_of_ascii c - 128)%N in
            if (b0 <? 240)%N
            then ((b0 - 224) * 4096 + b1 * 64 + b2)%N :: py s3
            else
              match s3 with
              | EmptyString => [b0; b1; b2]
              | String d s4 =>
                let b3 := (N_of_ascii d - 128)%N in
                ((b0 - 240) * 262144 + b1 * 4096 + b2 * 64 + b3)%N :: py s4
              end
          end
      end
  end.

(** [c.isspace()] for one code point: what [str.strip()] removes. *)
Definition isspace (c : N) : bool :=
  ((9 <=? c) && (c <=? 13) || (28 <=? c) && (c <=? 32)
   || (c =? 133) || (c =? 160) || (c =? 5760)
   || (8192 <=? c) && (c <=? 8202)
   || (c =? 8232) || (c =? 8233) || (c =? 8239) || (c =? 8287)
   || (c =? 12288))%N.

Fixpoint lstrip (s : pystr) : pystr :=
  match s with
  | c :: s' => if isspace c then lstrip s' else s
  | [] => []
  end.

Definition rstrip (s : pystr) : pystr := rev (lstrip (rev s)).

(** [s.strip()] *)
Definition strip (s : pystr) : pystr := rstrip (lstrip s).

(** [t.startswith(k)] *)
Fixpoint startswith (k t : pystr) : bool :=
  match k, t with
  | [], _ => true
  | _ :: _, [] => false
  | a :: k', b :: t' => (a =? b)%N && startswith k' t'
  end.

(** [k in t] on strings: [k] occurs as a substring of [t]. *)
Fixpoint contains (k t : pystr) : bool :=
  startswith k t
  || match t with
     | [] => false
     | _ :: t' => contains k t'
     end.

(** [any(k in t for k in keywords)] *)
Definition any_in (keywords : list pystr) (t : pystr) : bool :=
  existsb (fun k => contains k t) keywords.

(** [str.lower] on Basic Latin: [A]-[Z] go to [a]-[z], every other code
    point stays. *)
Definition ascii_lower (s : pystr) : pystr :=
  map (fun c => if (65 <=? c) && (c <=? 90) then c + 32 else c)%N s.

(* ===================================================================== *)
(** ** Exceptions *)
(* ===================================================================== *)

(** An exception as the handlers observe it: through [str(e)]. *)
Record PyException : Type := Exception { exc_str : pystr }.

(** [fastapi.HTTPException(status_code=..., detail=...)] *)
Record HTTPException : Type := mkHTTPException {
  status_code : Z;
  detail : pystr
}.

Inductive outcome (E A : Type) : Type :=
| Return (a : A)
| Raise (e : E).
Arguments Return {E A} a.
Arguments Raise {E A} e.

#[global] Instance outcome_ret {E} : MRet (outcome E) := fun A a => Return a.

#[global] Instance outcome_bind {E} : MBind (outcome E) :=
  fun A B f m =>
    match m with
    | Return a => f a
    | Raise e => Raise e
    end.

(** What can leave a route handler: an [HTTPException], which the framework
    answers with its status code and detail, or any other exception. *)
Inductive raised : Type :=
| HTTPError (h : HTTPException)
| Unhandled (e : PyException).

(** Code that updates a state of type [S] and may raise: the state reached
    when the exception was raised is what the handler sees. *)
Definition eff (S E A : Type) : Type := S -> outcome E A * S.

#[global] Instance eff_ret {S E} : MRet (eff S E) :=
  fun A a s => (Return a, s).

#[global] Instance eff_bind {S E} : MBind (eff S E) :=
  fun A B f m s =>
    match m s with
    | (Return a, s') => f a s'
    | (Raise e, s') => (Raise e, s')
    end.

Definition raise {S E A} (e : E) : eff S E A := fun s => (Raise e, s).

Definition modify {S E} (f : S -> S) : eff S E unit := fun s => (Return tt, f s).

(** A pure computation that may raise, run inside [eff]. *)
Definition lift {S E A} (o : outcome E A) : eff S E A := fun s => (o, s).

(** [try: body / except Exception as e: handler e] *)
Definition try_except {S E E' A} (body : eff S E A) (handler : E -> eff S E' A)
  : eff S E' A :=
  fun s =>
    match body s with
    | (Return a, s') => (Return a, s')
    | (Raise e, s') => handler e s'
    end.

(** [xs[-1]] *)
Definition last_item {A} (xs : list A) : outcome raised A :=
  match last xs with
  | Some x => Return x
  | None => Raise (Unhandled (Exception (py "list index out of range")))
  end.

(* ===================================================================== *)
(** ** The framework's side of a route *)
(* ===================================================================== *)

Inductive ResponseBody (A : Type) : Type :=
| Json (a : A)                            (* the handler's return value *)
| Detail (d : pystr)                      (* {"detail": d} of an HTTPException *)
| ValidationErrors (fields : list string) (* {"detail": [...]}: one entry per rejected field *)
| InternalServerError.
Arguments Json {A} a.
Arguments Detail {A} d.
Arguments ValidationErrors {A} fields.
Arguments InternalServerError {A}.

Record HTTPResponse (A : Type) : Type := mkHTTPResponse {
  http_status : Z;
  http_body : ResponseBody A
}.
Arguments mkHTTPResponse {A} http_status http_body.
Arguments http_status {A} _.
Arguments http_body {A} _.

(** The status FastAPI gives a request whose body does not validate against
    the handler's parameter model ([RequestValidationError]); [main.py]
    installs no exception handler of its own. *)
Definition HTTP_422_UNPROCESSABLE_ENTITY : Z := 422.

(** What the framework sends for the outcome of a handler. *)
Definition serve {A} (o : outcome raised A) : HTTPResponse A :=
  match o with
  | Return a => mkHTTPResponse 200 (Json a)
  | Raise (HTTPError h) => mkHTTPResponse (status_code h) (Detail (detail h))
  | Raise (Unhandled _) => mkHTTPResponse 500 InternalServerError
  end.

(* ===================================================================== *)
(** ** AI chat: the rule-based responder *)
(* ===================================================================== *)

Record ChatMessage : Type := mkChatMessage {
  role : pystr;
  content : pystr
}.

Record ChatRequest : Type := mkChatRequest {
  messages : list ChatMessage
}.

(** [maybe_reservation: Optional[Dict[str, Any]]]: the responder only ever
    stores [None] there, so the dictionary's values are left as strings. *)
Record ChatResponse : Type := mkChatResponse {
  reply : pystr;
  suggestions : list pystr;
  maybe_reservation : option (gmap string pystr)
}.

Definition wine_keywords : list pystr := [py "wine"; py "pairing"; py "sommelier"].
Definition steak_keywords : list pystr := [py "steak"; py "beef"; py "wagyu"].
Definition vegan_keywords : list pystr := [py "vegan"; py "vegetarian"].
Definition dessert_keywords : list pystr := [py "dessert"; py "sweet"; py "chocolate"].
Definition booking_keywords : list pystr :=
  [py "book"; py "reserve"; py "table"; py "reservation"].

Definition default_reply : pystr :=
  py "Welcome to Étoile Noire. Tell me what you enjoy (steak, vegan, wine) or say 'reserve' to book a table.".

Section Responder.

(** [str.lower] *)
Variable lower : pystr -> pystr.

Definition simple_recommender (text : pystr) : ChatResponse :=
  let t := lower text in
  let suggestions : list pystr := [] in
  let reply : pystr := py "" in
  let '(suggestions, reply) :=
    if any_in wine_keywords t then
      let suggestions := suggestions ++ [py "Grand Cru Burgundy 2015"] in
      let suggestions := suggestions ++ [py "Vintage Champagne Brut 2008"] in
      (suggestions,
       py "Our sommelier recommends a Grand Cru Burgundy with rich mains or a vintage Champagne to open the evening.")
    else (suggestions, reply) in
  let '(suggestions, reply) :=
    if any_in steak_keywords t then
      let suggestions :=
        suggestions ++ [py "A5 Miyazaki Wagyu with black truffle jus"] in
      (suggestions,
       strip (reply ++ py " ")
       ++ py " Our signature A5 Wagyu is seared over binchotan and finished with truffle jus.")
    else (suggestions, reply) in
  let '(suggestions, reply) :=
    if any_in vegan_keywords t then
      let suggestions :=
        suggestions ++ [py "Charred Romanesco with almond velouté"] in
      (suggestions,
       strip (reply ++ py " ")
       ++ py " We offer refined plant-forward courses like Charred Romanesco with almond velouté.")
    else (suggestions, reply) in
  let '(suggestions, reply) :=
    if any_in dessert_keywords t then
      let suggestions :=
        suggestions ++ [py "72% Dark Chocolate Marquis with gold leaf"] in
      (suggestions,
       strip (reply ++ py " ")
       ++ py " For dessert, the Dark Chocolate Marquis adorned with gold leaf is exquisite.")
    else (suggestions, reply) in
  (* Reservation detection *)
  let maybe_reservation : option (gmap string pystr) := None in
  let reply :=
    if any_in booking_keywords t then
      strip (reply ++ py " ")
      ++ py " I can book a table for you. Please share date, time, and party size."
    else reply in
  let reply :=
    if bool_decide (reply = py "") then default_reply else reply in
  mkChatResponse reply suggestions maybe_reservation.

End Responder.


(** The local [last_text] of [chat_endpoint]:
    [user_texts[-1] if user_texts else req.messages[-1].content]. *)
Definition last_text (req : ChatRequest) : outcome raised pystr :=
  let user_texts :=
    map content (filter (fun m => role m = py "user") (messages req)) in
  if bool_decide (user_texts <> []) then last_item user_texts
  else m ← last_item (messages req); mret (content m).

Section ChatEndpoint.

Variable lower : pystr -> pystr.

Definition chat_endpoint (req : ChatRequest) : outcome raised ChatResponse :=
  if bool_decide (messages req = []) then
    Raise (HTTPError (mkHTTPException 400 (py "No messages provided")))
  else
    last_text ← last_text req;
    let result := simple_recommender lower last_text in
    mret result.

(** [POST /api/chat] for a request body that parses as a [ChatRequest]. *)
Definition post_api_chat (req : ChatRequest) : HTTPResponse ChatResponse :=
  serve (chat_endpoint req).

End ChatEndpoint.

(** *** The responder's fixed texts, as the specification names them *)

(** The sentence fragment of each keyword group (the literals of
    [simple_recommender], without the space that separates them). *)
Definition wine_fragment : pystr :=
  py "Our sommelier recommends a Grand Cru Burgundy with rich mains or a vintage Champagne to open the evening.".
Definition steak_fragment : pystr :=
  py "Our signature A5 Wagyu is seared over binchotan and finished with truffle jus.".
Definition vegan_fragment : pystr :=
  py "We offer refined plant-forward courses like Charred Romanesco with almond velouté.".
Definition dessert_fragment : pystr :=
  py "For dessert, the Dark Chocolate Marquis adorned with gold leaf is exquisite.".
Definition booking_fragment : pystr :=
  py "I can book a table for you. Please share date, time, and party size.".

(** The fragments of the groups that match the lower-cased text [t], in
    the fixed group order. *)
Definition matched_fragments (t : pystr) : list pystr :=
  (if any_in wine_keywords t then [wine_fragment] else [])
  ++ (if any_in steak_keywords t then [steak_fragment] else [])
  ++ (if any_in vegan_keywords t then [vegan_fragment] else [])
  ++ (if any_in dessert_keywords t then [dessert_fragment] else [])
  ++ (if any_in booking_keywords t then [booking_fragment] else []).

(** Concatenation with single spaces in between: [" ".join(parts)]. *)
Fixpoint join_spaces (parts : list pystr) : pystr :=
  match parts with
  | [] => []
  | [p] => p
  | p :: rest => p ++ py " " ++ join_spaces rest
  end.

(** How many of the four suggestion-bearing groups match [t]. *)
Definition matched_suggestion_groups (t : pystr) : nat :=
  length (filter (fun ks => any_in ks t = true)
                 [wine_keywords; steak_keywords; vegan_keywords; dessert_keywords]).

(** No keyword of any of the five groups occurs in [t]. *)
Definition no_keyword (t : pystr) : Prop :=
  any_in wine_keywords t = false /\ any_in steak_keywords t = false
  /\ any_in vegan_keywords t = false /\ any_in dessert_keywords t = false
  /\ any_in booking_keywords t = false.

(* ===================================================================== *)
(** ** GET /test: the diagnostic endpoint *)
(* ===================================================================== *)

(** Reading an attribute of an object: it is missing ([AttributeError], the
    one case in which [hasattr] answers [False]), it has a value, or the
    lookup raises something else. *)
Inductive attribute (A : Type) : Type :=
| AttrMissing
| AttrValue (a : A)
| AttrRaises (e : PyException).
Arguments AttrMissing {A}.
Arguments AttrValue {A} a.
Arguments AttrRaises {A} e.

(** The store handle [database.db], as far as [test_database] uses it. *)
Record Database : Type := mkDatabase {
  db_name : attribute pystr;
  list_collection_names : outcome PyException (list pystr)
}.

(** What [test_database] reads from outside: the global [db] ([None] or a
    handle) and the process environment. *)
Record Environment : Type := mkEnvironment {
  db : option Database;
  getenv_DATABASE_URL : option pystr
}.

(** The [response] dictionary of [test_database]: its six keys are fixed. *)
Record Diagnostics : Type := mkDiagnostics {
  backend : pystr;
  database : pystr;
  database_url : option pystr;
  database_name : option pystr;
  connection_status : pystr;
  collections : list pystr
}.

Definition set_database (v : pystr) (r : Diagnostics) : Diagnostics :=
  mkDiagnostics (backend r) v (database_url r) (database_name r)
                (connection_status r) (collections r).
Definition set_database_url (v : option pystr) (r : Diagnostics) : Diagnostics :=
  mkDiagnostics (backend r) (database r) v (database_name r)
                (connection_status r) (collections r).
Definition set_database_name (v : option pystr) (r : Diagnostics) : Diagnostics :=
  mkDiagnostics (backend r) (database r) (database_url r) v
                (connection_status r) (collections r).
Definition set_connection_status (v : pystr) (r : Diagnostics) : Diagnostics :=
  mkDiagnostics (backend r) (database r) (database_url r) (database_name r)
                v (collections r).
Definition set_collections (v : list pystr) (r : Diagnostics) : Diagnostics :=
  mkDiagnostics (backend r) (database r) (database_url r) (database_name r)
                (connection_status r) v.

(** Truth value of [os.getenv(...)]: set and not empty. *)
Definition truthy (v : option pystr) : bool :=
  match v with
  | Some (_ :: _) => true
  | _ => false
  end.

(** [d.name if hasattr(d, 'name') else "✅ Connected"] *)
Definition name_or_connected (d : Database) : outcome PyException pystr :=
  match db_name d with
  | AttrMissing => Return (py "✅ Connected")
  | AttrValue v => Return v
  | AttrRaises e => Raise e
  end.

Definition test_database (env : Environment) : outcome raised Diagnostics :=
  let response :=
    mkDiagnostics (py "✅ Running") (py "❌ Not Available") None None
                  (py "Not Connected") [] in
  let body : eff Diagnostics PyException unit :=
    match db env with
    | Some d =>
      _ ← modify (set_database (py "✅ Available"));
      _ ← modify (set_database_url
                    (Some (if truthy (getenv_DATABASE_URL env)
                           then py "✅ Set" else py "❌ Not Set")));
      name ← lift (name_or_connected d);
      _ ← modify (set_database_name (Some name));
      _ ← modify (set_connection_status (py "Connected"));
      try_except
        (collections ← lift (list_collection_names d);
         _ ← modify (set_collections (take 10 collections));
         modify (set_database (py "✅ Connected & Working")))
        (fun e =>
           modify (set_database
                     (py "⚠️  Connected but Error: " ++ take 50 (exc_str e))))
    | None => modify (set_database (py "⚠️  Available but not initialized"))
    end in
  match
    try_except (E' := PyException) body
      (fun e => modify (set_database (py "❌ Error: " ++ take 50 (exc_str e))))
      response
  with
  | (Return _, response) => Return response
  | (Raise e, _) => Raise (Unhandled e)
  end.

(** [GET /test] *)
Definition get_test (env : Environment) : HTTPResponse Diagnostics :=
  serve (test_database env).

(* ===================================================================== *)
(** ** Reservations *)
(* ===================================================================== *)

(** The JSON body of [POST /api/reservations] before validation: each field
    is absent or carries a value of the annotated type. *)
Record ReservationPayload : Type := mkReservationPayload {
  raw_name : option pystr;
  raw_phone : option pystr;
  raw_date : option pystr;
  raw_time : option pystr;
  raw_party_size : option Z;
  raw_occasion : option pystr;
  raw_notes : option pystr
}.

Record ReservationCreate : Type := mkReservationCreate {
  name : pystr;
  phone : pystr;
  date : pystr;
  time : pystr;
  party_size : Z;
  occasion : option pystr;
  notes : option pystr
}.

(** The fields of a body that [ReservationCreate] rejects: a required field
    ([Field(...)]) that is absent, and [party_size] outside [ge=1, le=20]. *)
Definition rejected_fields (raw : ReservationPayload) : list string :=
  (if raw_name raw is None then ["name"%string] else [])
  ++ (if raw_phone raw is None then ["phone"%string] else [])
  ++ (if raw_date raw is None then ["date"%string] else [])
  ++ (if raw_time raw is None then ["time"%string] else [])
  ++ (match raw_party_size raw with
      | None => ["party_size"%string]
      | Some n => if (1 <=? n) && (n <=? 20) then [] else ["party_size"%string]
      end).

(** Validation of the body against the handler's parameter model. *)
Definition parse_ReservationCreate (raw : ReservationPayload)
  : list string + ReservationCreate :=
  match raw_name raw, raw_phone raw, raw_date raw, raw_time raw,
        raw_party_size raw with
  | Some n, Some p, Some d, Some t, Some k =>
    if (1 <=? k) && (k <=? 20)
    then inr (mkReservationCreate n p d t k (raw_occasion raw) (raw_notes raw))
    else inl (rejected_fields raw)
  | _, _, _, _, _ => inl (rejected_fields raw)
  end.

(** [{"status": "ok", "id": inserted_id}] *)
Record Created : Type := mkCreated {
  created_status : pystr;
  created_id : pystr
}.

Section CreateReservation.

(** The canonical record and the store are those of [schemas.py] and
    [database.py]. *)
Context {Reservation Store : Type}.

(** [schemas.Reservation] applied to the fields of the payload
    ([payload.model_dump()]): the canonical record, or the validation
    error it raises. *)
Variable ReservationSchema : ReservationCreate -> outcome PyException Reservation.

(** [database.create_document(collection, record)]: the identifier of the
    inserted document, in a store that the call may change. *)
Variable create_document : string -> Reservation -> eff Store PyException pystr.

Definition create_reservation (payload : ReservationCreate)
  : eff Store raised Created :=
  try_except
    ((* Validate against canonical schema *)
     reservation ← lift (ReservationSchema payload);
     inserted_id ← create_document "reservation"%string reservation;
     mret (mkCreated (py "ok") inserted_id))
    (fun e => raise (HTTPError (mkHTTPException 400 (exc_str e)))).

(** [POST /api/reservations]: the body is validated against
    [ReservationCreate] first, and the handler runs on what validated. *)
Definition post_api_reservations (raw : ReservationPayload) (st : Store)
  : HTTPResponse Created * Store :=
  match parse_ReservationCreate raw with
  | inl fields =>
    (mkHTTPResponse HTTP_422_UNPROCESSABLE_ENTITY (ValidationErrors fields), st)
  | inr payload =>
    let '(o, st') := create_reservation payload st in
    (serve o, st')
  end.

End CreateReservation.

(** *** A schema and a store to run the handler on

    A canonical schema that accepts every validated payload as it is, and
    a store that keeps the inserted records in a list and numbers them. *)

Definition accept_payload (payload : ReservationCreate)
  : outcome PyException ReservationCreate :=
  Return payload.

Definition append_document (collection : string) (record : ReservationCreate)
  : eff (list ReservationCreate) PyException pystr :=
  fun st => (Return (py (pretty (Z.of_nat (length st)))), st ++ [record]).

(** A request body with every required field and the given party size. *)
Definition payload_for (k : Z) : ReservationPayload :=
  mkReservationPayload (Some (py "Ada")) (Some (py "+33 1 23 45 67 89"))
                       (Some (py "2025-06-01")) (Some (py "20:30"))
                       (Some k) None None.

(** A canonical schema that refuses every payload, and a store whose
    insertion fails and leaves it as it was. *)
Definition reject_payload (payload : ReservationCreate)
  : outcome PyException ReservationCreate :=
  Raise (Exception (py "1 validation error for Reservation")).

Definition failing_insert (collection : string) (record : ReservationCreate)
  : eff (list ReservationCreate) PyException pystr :=
  fun st => (Raise (Exception (py "Database not available")), st).

(** Values of a stored document's fields. *)
Inductive value : Type :=
| VNone
| VInt (z : Z)
| VStr (s : pystr)
| VObjectId (hex : pystr).   (* bson.ObjectId; [str] gives its hex digits *)

#[global] Instance value_eq_dec : EqDecision value.
Proof. solve_decision. Defined.

(** [str(v)] *)
Definition py_str (v : value) : pystr :=
  match v with
  | VNone => py "None"
  | VInt z => py (pretty z)
  | VStr s => s
  | VObjectId hex => hex
  end.

(** One round of the loop of [list_reservations] on a document [d]:
    [if "_id" in d: d["id"] = str(d.pop("_id"))]. *)
Definition id_to_str (d : gmap string value) : gmap string value :=
  match d !! "_id"%string with
  | Some v => <["id"%string := VStr (py_str v)]> (delete "_id"%string d)
  | None => d
  end.

(** [{"items": docs}] *)
Record Listing : Type := mkListing {
  items : list (gmap string value)
}.

(** What the framework can encode as JSON when it sends a handler's return
    value: [None], integers and strings are, a [bson.ObjectId] is not. *)
Definition jsonable (v : value) : bool :=
  match v with
  | VObjectId _ => false
  | VNone | VInt _ | VStr _ => true
  end.

Definition jsonable_document (d : gmap string value) : Prop :=
  map_Forall (fun _ v => jsonable v = true) d.

#[global] Instance jsonable_document_dec (d : gmap string value) :
  Decision (jsonable_document d).
Proof. unfold jsonable_document. apply _. Defined.

Section ListReservations.

(** [database.get_documents(collection, filter_dict, limit)] for the store
    at the time of the call. *)
Variable get_documents :
  string -> gmap string value -> Z -> outcome PyException (list (gmap string value)).

Definition list_reservations (limit : Z) : outcome raised Listing :=
  match
    (docs ← get_documents "reservation"%string ∅ limit;
     (* Convert ObjectId to str if present *)
     let docs := map id_to_str docs in
     mret (mkListing docs))
  with
  | Return r => Return r
  | Raise e => Raise (HTTPError (mkHTTPException 500 (exc_str e)))
  end.

(** [GET /api/reservations?limit=N]: the listing that the handler returns
    is encoded as JSON.  The loop converts ["_id"] only: a document that
    still holds an [ObjectId] under another key makes the encoding fail
    after the handler has returned, which the framework answers with its
    500. *)
Definition get_api_reservations (limit : Z) : HTTPResponse Listing :=
  match list_reservations limit with
  | Return r =>
    if bool_decide (Forall jsonable_document (items r))
    then serve (Return r)
    else mkHTTPResponse 500 InternalServerError
  | Raise e => serve (Raise e)
  end.

End ListReservations.

(** *** The document store adapter *)

Module StoreAdapter.

(** A stored document: the identifier the store assigned on insert, and
    the fields of the record. *)
Record StoredDocument : Type := mkStoredDocument {
  stored_id : pystr;
  stored_fields : gmap string value
}.

(** A store: failing (with what the adapter raises), or holding named
    collections of documents. *)
Record DocumentStore : Type := mkDocumentStore {
  store_failure : option PyException;
  store_collections : gmap string (list StoredDocument)
}.

(** The document as a query returns it. *)
Definition as_dict (d : StoredDocument) : gmap string value :=
  <["_id"%string := VObjectId (stored_id d)]> (stored_fields d).

(** Modelled from the spec: [database.get_documents] is imported by
    [main.py] and its file is not among the sources.  It "returns up to
    [limit] matching records (filter is a generic key/value match
    specification; current callers pass an empty filter to mean all)",
    and "adapter failures propagate as exceptions". *)
Definition get_documents (st : DocumentStore) (collection : string)
           (filter_dict : gmap string value) (limit : Z)
  : outcome PyException (list (gmap string value)) :=
  match store_failure st with
  | Some e => Raise e
  | None =>
    let stored := default [] (store_collections st !! collection) in
    let matching :=
      filter (fun d => map_Forall (fun k v => d !! k = Some v) filter_dict)
             (map as_dict stored) in
    Return (take (Z.to_nat limit) matching)
  end.

End StoreAdapter.

(** A store without any collection, and one with three reservations. *)
Definition empty_store : StoreAdapter.DocumentStore :=
  StoreAdapter.mkDocumentStore None ∅.

Definition reservation_of (hex who : string) : StoreAdapter.StoredDocument :=
  StoreAdapter.mkStoredDocument (py hex)
    (<["name"%string := VStr (py who)]> (<["party_size"%string := VInt 2]> ∅)).

Definition three_reservations : StoreAdapter.DocumentStore :=
  StoreAdapter.mkDocumentStore None
    (<["reservation"%string :=
         [reservation_of "665f1c2a9b3e4d0012ab34c1" "Ada";
          reservation_of "665f1c2a9b3e4d0012ab34c2" "Grace";
          reservation_of "665f1c2a9b3e4d0012ab34c3" "Edsger"]]> ∅).

(* ===================================================================== *)
(** * Properties *)
(* ===================================================================== *)

(** ** The literals of this file *)

Example py_accents :
  py "é" = [233%N] /\ py "É" = [201%N] /\ py "✅" = [9989%N]
  /\ py "⚠️" = [9888%N; 65039%N].
Proof. repeat split; reflexivity. Qed.

Example strip_both_ends : strip (py "  a b  ") = py "a b".
Proof. reflexivity. Qed.

Example contains_substring :
  contains (py "wine") (py "red wines") = true
  /\ contains (py "wine") (py "win e") = false.
Proof. split; reflexivity. Qed.

(** ** The rule-based responder *)

(** The five keyword tests are all that [simple_recommender] reads of its
    input: case analysis on them leaves closed terms. *)
Ltac by_keyword_groups t :=
  destruct (any_in wine_keywords t) eqn:Hwine,
           (any_in steak_keywords t) eqn:Hsteak,
           (any_in vegan_keywords t) eqn:Hvegan,
           (any_in dessert_keywords t) eqn:Hdessert,
           (any_in booking_keywords t) eqn:Hbooking.

Section ResponderFacts.

Variable lower : pystr -> pystr.

(** The reply as a function of the matched fragments.  A single fragment
    other than the wine one keeps the space it was appended with: the
    [strip] of the next append is what would have removed it. *)
Lemma reply_by_fragments (text : pystr) :
  reply (simple_recommender lower text) =
  match matched_fragments (lower text) with
  | [] => default_reply
  | [f] => if any_in wine_keywords (lower text) then f else py " " ++ f
  | fs => join_spaces fs
  end.
Proof.
  unfold simple_recommender, matched_fragments.
  by_keyword_groups (lower text); vm_compute; reflexivity.
Qed.

Lemma suggestions_by_groups (text : pystr) :
  suggestions (simple_recommender lower text) =
  (if any_in wine_keywords (lower text)
   then [py "Grand Cru Burgundy 2015"; py "Vintage Champagne Brut 2008"]
   else [])
  ++ (if any_in steak_keywords (lower text)
      then [py "A5 Miyazaki Wagyu with black truffle jus"] else [])
  ++ (if any_in vegan_keywords (lower text)
      then [py "Charred Romanesco with almond velouté"] else [])
  ++ (if any_in dessert_keywords (lower text)
      then [py "72% Dark Chocolate Marquis with gold leaf"] else []).
Proof.
  unfold simple_recommender.
  by_keyword_groups (lower text); vm_compute; reflexivity.
Qed.

Lemma maybe_reservation_none (text : pystr) :
  maybe_reservation (simple_recommender lower text) = None.
Proof.
  unfold simple_recommender.
  by_keyword_groups (lower text); reflexivity.
Qed.

Lemma matched_fragments_nil (t : pystr) :
  matched_fragments t = [] <-> no_keyword t.
Proof.
  unfold matched_fragments, no_keyword.
  by_keyword_groups t; split; intros H; try discriminate H;
    try reflexivity; try (repeat split; reflexivity);
    destruct H as (?&?&?&?&?); discriminate.
Qed.

End ResponderFacts.

(** The fragments carry no whitespace of their own at either end, so the
    spaces of [join_spaces] are the only ones between them. *)
Lemma fragments_stripped (t : pystr) :
  Forall (fun f => strip f = f /\ f <> []) (matched_fragments t).
Proof.
  unfold matched_fragments.
  by_keyword_groups t; repeat constructor; discriminate.
Qed.

(** What a text that names one dish gets: the fragment is appended to the
    still empty reply with its separating space in front. *)
Example reply_steak_keeps_separator :
  reply (simple_recommender ascii_lower (py "steak")) = py " " ++ steak_fragment.
Proof. vm_compute. reflexivity. Qed.

Example reply_two_groups :
  reply (simple_recommender ascii_lower (py "Steak, then something SWEET"))
  = steak_fragment ++ py " " ++ dessert_fragment.
Proof. vm_compute. reflexivity. Qed.

Example reply_wine_pairing :
  simple_recommender ascii_lower (py "Can you suggest a wine pairing?")
  = mkChatResponse wine_fragment
      [py "Grand Cru Burgundy 2015"; py "Vintage Champagne Brut 2008"] None.
Proof. vm_compute. reflexivity. Qed.

(** Where the trimming of [simple_recommender] works: when the wine group
    matches or at least two groups match, the reply is exactly the
    fragments of the matched groups, in group order, separated by single
    spaces, without whitespace at either end. *)
Lemma reply_joins_when_trimmed (lower : pystr -> pystr) (text : pystr) :
  let r := reply (simple_recommender lower text) in
  let fs := matched_fragments (lower text) in
  any_in wine_keywords (lower text) = true \/ (2 <= length fs)%nat ->
  r = join_spaces fs /\ strip r = r.
Proof.
  cbv zeta. rewrite reply_by_fragments. unfold matched_fragments.
  by_keyword_groups (lower text);
    (vm_compute;
     intros [H | H]; first [ discriminate H | split; reflexivity | lia ]).
Qed.

(** C2 fails in the code at the text "steak": one group matches, the reply
    should be its fragment, and the reply is a space followed by the
    fragment.  The fragment is appended with its separating space after
    [(reply + " ").strip()] ran on the still empty reply, so the trimming
    that removes the separator in the other paths misses it here. *)
Theorem C2_steak_reply_leading_space :
  matched_fragments (ascii_lower (py "steak")) = [steak_fragment]
  /\ join_spaces (matched_fragments (ascii_lower (py "steak"))) = steak_fragment
  /\ reply (simple_recommender ascii_lower (py "steak"))
     = py " " ++ steak_fragment
  /\ reply (simple_recommender ascii_lower (py "steak"))
     <> join_spaces (matched_fragments (ascii_lower (py "steak")))
  /\ strip (reply (simple_recommender ascii_lower (py "steak")))
     <> reply (simple_recommender ascii_lower (py "steak")).
Proof.
  split; [| split; [| split; [| split]]].
  - vm_compute. reflexivity.
  - vm_compute. reflexivity.
  - vm_compute. reflexivity.
  - vm_compute. discriminate.
  - vm_compute. discriminate.
Qed.

(** The same at the specification's own example of a booking request. *)
Example reply_reserve_a_table_leading_space :
  reply (simple_recommender ascii_lower (py "I'd like to reserve a table"))
  = py " " ++ booking_fragment.
Proof. vm_compute. reflexivity. Qed.

(** C3, as stated, fails on a text that matches the wine group alone: one
    group matches and two suggestion strings are appended. *)
Lemma C3_counterexample_wine :
  matched_suggestion_groups (ascii_lower (py "wine")) = 1%nat
  /\ suggestions (simple_recommender ascii_lower (py "wine"))
     = [py "Grand Cru Burgundy 2015"; py "Vintage Champagne Brut 2008"].
Proof. split; vm_compute; reflexivity. Qed.

(** C3 (amended): for every input text, the suggestions list is what the
    matching groups append in the fixed order: the wine group
    (wine/pairing/sommelier), when some keyword of it occurs in the
    lower-cased text, appends its two fixed strings, each of the groups
    steak/beef/wagyu, vegan/vegetarian and dessert/sweet/chocolate appends
    exactly one fixed string, and a group that does not match appends
    none. *)
Theorem C3_suggestions_per_group (lower : pystr -> pystr) (text : pystr) :
  let t := lower text in
  let wine := if any_in wine_keywords t
              then [py "Grand Cru Burgundy 2015"; py "Vintage Champagne Brut 2008"]
              else [] in
  let steak := if any_in steak_keywords t
               then [py "A5 Miyazaki Wagyu with black truffle jus"] else [] in
  let vegan := if any_in vegan_keywords t
               then [py "Charred Romanesco with almond velouté"] else [] in
  let dessert := if any_in dessert_keywords t
                 then [py "72% Dark Chocolate Marquis with gold leaf"] else [] in
  suggestions (simple_recommender lower text) = wine ++ steak ++ vegan ++ dessert
  /\ length wine = (if any_in wine_keywords t then 2 else 0)%nat
  /\ length steak = (if any_in steak_keywords t then 1 else 0)%nat
  /\ length vegan = (if any_in vegan_keywords t then 1 else 0)%nat
  /\ length dessert = (if any_in dessert_keywords t then 1 else 0)%nat.
Proof.
  cbv zeta. split; [apply suggestions_by_groups |].
  repeat split;
    match goal with |- context [any_in ?ks ?t] => destruct (any_in ks t) end;
    reflexivity.
Qed.

(** A string whose last code points are [k] is some string followed by [k]. *)
Lemma ends_with_suffix (k r : pystr) :
  drop (length r - length k) r = k -> exists before, r = before ++ k.
Proof.
  intros Hdrop. exists (take (length r - length k) r).
  transitivity (take (length r - length k) r ++ drop (length r - length k) r).
  - symmetry. apply take_drop.
  - f_equal. exact Hdrop.
Qed.

(** C8: for every input text in which some keyword of the fifth group
    (book/reserve/table/reservation) occurs in the lower-cased text, the
    reply contains the fixed booking invitation sentence (it ends with it),
    whichever of the other four groups match. *)
Theorem C8_booking_invitation (lower : pystr -> pystr) (text : pystr) :
  any_in booking_keywords (lower text) = true ->
  contains booking_fragment (reply (simple_recommender lower text)) = true
  /\ exists before, reply (simple_recommender lower text) = before ++ booking_fragment.
Proof.
  intros Hbook. rewrite reply_by_fragments. unfold matched_fragments.
  rewrite Hbook.
  destruct (any_in wine_keywords (lower text)),
           (any_in steak_keywords (lower text)),
           (any_in vegan_keywords (lower text)),
           (any_in dessert_keywords (lower text));
    (split; [| apply ends_with_suffix]; vm_compute; reflexivity).
Qed.

(** The example of C8: "I'd like to reserve a table". *)
Lemma C8_reserve_a_table :
  contains booking_fragment
    (reply (simple_recommender ascii_lower (py "I'd like to reserve a table")))
  = true.
Proof.
  apply (C8_booking_invitation ascii_lower (py "I'd like to reserve a table")).
  vm_compute. reflexivity.
Defined.

(** C9: for every input text in which no keyword of any of the five groups
    occurs in the lower-cased text, the responder returns exactly the
    default welcome sentence and an empty suggestions list. *)
Theorem C9_default_reply (lower : pystr -> pystr) (text : pystr) :
  no_keyword (lower text) ->
  reply (simple_recommender lower text) = default_reply
  /\ suggestions (simple_recommender lower text) = [].
Proof.
  intros Hnone. split.
  - rewrite reply_by_fragments.
    apply matched_fragments_nil in Hnone. rewrite Hnone. reflexivity.
  - rewrite suggestions_by_groups.
    destruct Hnone as (-> & -> & -> & -> & _). reflexivity.
Qed.

(** A greeting without any keyword. *)
Lemma C9_hello :
  reply (simple_recommender ascii_lower (py "hello")) = default_reply
  /\ suggestions (simple_recommender ascii_lower (py "hello")) = [].
Proof.
  apply (C9_default_reply ascii_lower (py "hello")).
  repeat split; vm_compute; reflexivity.
Defined.

(** C10: for every input text, the empty string included, the reply of the
    responder is not the empty string. *)
Theorem C10_reply_not_empty (lower : pystr -> pystr) (text : pystr) :
  reply (simple_recommender lower text) <> py ""
  /\ (0 < length (reply (simple_recommender lower text)))%nat.
Proof.
  assert (Hne : reply (simple_recommender lower text) <> []).
  { rewrite reply_by_fragments.
    pose proof (fragments_stripped (lower text)) as Hfs.
    destruct (matched_fragments (lower text)) as [| f [| g fs]].
    - discriminate.
    - apply Forall_cons in Hfs as [[_ Hf] _].
      destruct (any_in wine_keywords (lower text)); [exact Hf | discriminate].
    - apply Forall_cons in Hfs as [[_ Hf] _].
      destruct f; [congruence | discriminate]. }
  split; [exact Hne |].
  destruct (reply (simple_recommender lower text)); [congruence | cbn; lia].
Qed.

(** ** The chat endpoint *)

Lemma last_item_snoc {A} (xs : list A) (x : A) : last_item (xs ++ [x]) = Return x.
Proof. unfold last_item. rewrite last_snoc. reflexivity. Qed.

(** [xs[-1]] raises on the empty list only. *)
Lemma last_item_nonempty {A} (xs : list A) :
  xs <> [] -> exists x, last_item xs = Return x /\ last xs = Some x.
Proof.
  intros Hne. apply last_is_Some in Hne as [x Hx].
  exists x. unfold last_item. rewrite Hx. split; reflexivity.
Qed.

Lemma filter_user_none (msgs : list ChatMessage) :
  Forall (fun x => role x <> py "user") msgs ->
  filter (fun m => role m = py "user") msgs = [].
Proof.
  induction 1 as [| m msgs Hm _ IH]; [reflexivity |].
  rewrite filter_cons_False by exact Hm. exact IH.
Qed.

(** The contents of the messages with role "user", when the last of them is
    [m]. *)
Lemma user_texts_split (pre post : list ChatMessage) (m : ChatMessage) :
  role m = py "user" ->
  Forall (fun x => role x <> py "user") post ->
  map content (filter (fun m => role m = py "user") (pre ++ m :: post))
  = map content (filter (fun m => role m = py "user") pre) ++ [content m].
Proof.
  intros Hm Hpost.
  rewrite filter_app, filter_cons_True by exact Hm.
  rewrite (filter_user_none _ Hpost), map_app. reflexivity.
Qed.

(** Once the list of messages is not empty, neither index of [last_text]
    is out of range. *)
Lemma last_text_total (req : ChatRequest) :
  messages req <> [] -> exists text, last_text req = Return text.
Proof.
  intros Hne. unfold last_text.
  case_bool_decide as Huser.
  - destruct (last_item_nonempty _ Huser) as (t & Ht & _). eauto.
  - destruct (last_item_nonempty _ Hne) as (m & Hm & _).
    rewrite Hm. exists (content m). reflexivity.
Qed.

(** The handler runs the responder on [last_text]. *)
Lemma chat_runs_responder (lower : pystr -> pystr) (req : ChatRequest) :
  messages req <> [] ->
  exists text, chat_endpoint lower req = Return (simple_recommender lower text).
Proof.
  intros Hne. destruct (last_text_total req Hne) as [text Htext].
  exists text. unfold chat_endpoint.
  rewrite bool_decide_eq_false_2 by exact Hne.
  rewrite Htext. reflexivity.
Qed.

(** C6: for every non-empty chat message list, the text passed to the
    responder is the content of the last message whose role is "user"; if
    no message has role "user", it is the content of the very last
    message of the list. *)
Theorem C6_last_user_message (lower : pystr -> pystr) (req : ChatRequest) :
  messages req <> [] ->
  (forall pre m post,
      messages req = pre ++ m :: post ->
      role m = py "user" ->
      Forall (fun x => role x <> py "user") post ->
      last_text req = Return (content m))
  /\ (Forall (fun x => role x <> py "user") (messages req) ->
      exists pre m, messages req = pre ++ [m]
                    /\ last_text req = Return (content m))
  /\ (exists text, last_text req = Return text
                   /\ chat_endpoint lower req
                      = Return (simple_recommender lower text)).
Proof.
  intros Hne. split; [| split].
  - intros pre m post Hsplit Hm Hpost.
    unfold last_text. rewrite Hsplit, (user_texts_split _ _ _ Hm Hpost).
    rewrite bool_decide_eq_true_2.
    + apply last_item_snoc.
    + intros Hnil. apply app_eq_nil in Hnil as [_ Hnil]. discriminate Hnil.
  - intros Hnone.
    destruct (messages req) as [| m0 rest] eqn:Hmsgs using rev_ind;
      [congruence |].
    exists rest, m0. split; [reflexivity |].
    unfold last_text. rewrite Hmsgs, (filter_user_none _ Hnone). cbn [map].
    rewrite bool_decide_eq_false_2 by (intros H; apply H; reflexivity).
    rewrite last_item_snoc. reflexivity.
  - destruct (last_text_total req Hne) as [text Htext].
    exists text. split; [exact Htext |].
    unfold chat_endpoint.
    rewrite bool_decide_eq_false_2 by exact Hne.
    rewrite Htext. reflexivity.
Qed.

(** A conversation whose last message is the assistant's: the text is the
    user's last one. *)
Lemma C6_conversation :
  last_text
    (mkChatRequest
       [mkChatMessage (py "user") (py "hello");
        mkChatMessage (py "assistant") (py "Welcome.");
        mkChatMessage (py "user") (py "a table for two");
        mkChatMessage (py "assistant") (py "Certainly.")])
  = Return (py "a table for two").
Proof.
  refine (proj1 (C6_last_user_message ascii_lower _ _)
                [mkChatMessage (py "user") (py "hello");
                 mkChatMessage (py "assistant") (py "Welcome.")]
                (mkChatMessage (py "user") (py "a table for two"))
                [mkChatMessage (py "assistant") (py "Certainly.")] _ _ _).
  - discriminate.
  - reflexivity.
  - reflexivity.
  - repeat constructor. discriminate.
Defined.

(** C7: [POST /api/chat] returns status 400 if and only if the message list
    of the request is empty; for every non-empty message list it returns
    a structured chat response (reply, suggestions, maybe_reservation),
    with status 200. *)
Theorem C7_chat_400_iff_empty (lower : pystr -> pystr) (req : ChatRequest) :
  (http_status (post_api_chat lower req) = 400 <-> messages req = [])
  /\ (messages req = [] ->
      post_api_chat lower req
      = mkHTTPResponse 400 (Detail (py "No messages provided")))
  /\ (messages req <> [] ->
      exists r, chat_endpoint lower req = Return r
                /\ post_api_chat lower req = mkHTTPResponse 200 (Json r)).
Proof.
  assert (Hempty : messages req = [] ->
                   post_api_chat lower req
                   = mkHTTPResponse 400 (Detail (py "No messages provided"))).
  { intros Hnil. unfold post_api_chat, chat_endpoint.
    rewrite bool_decide_eq_true_2 by exact Hnil. reflexivity. }
  assert (Hfull : messages req <> [] ->
                  exists r, chat_endpoint lower req = Return r
                            /\ post_api_chat lower req
                               = mkHTTPResponse 200 (Json r)).
  { intros Hne.
    destruct (chat_runs_responder lower req Hne) as (text & Hrun).
    exists (simple_recommender lower text). split; [exact Hrun |].
    unfold post_api_chat. rewrite Hrun. reflexivity. }
  split; [| split; assumption].
  split.
  - intros Hstatus. destruct (decide (messages req = [])) as [Hnil | Hne];
      [exact Hnil |].
    destruct (Hfull Hne) as (r & _ & Hresp).
    rewrite Hresp in Hstatus. discriminate Hstatus.
  - intros Hnil. rewrite (Hempty Hnil). reflexivity.
Qed.


(** ** GET /test *)

(** C5: [GET /test] never raises and never returns a status other than
    200, whatever the state of the store: every internal failure is caught
    and rendered as a descriptive status string in the body of a normal
    response, and the list of collections is capped at the first 10
    names. *)
Theorem C5_test_never_fails (env : Environment) :
  exists r : Diagnostics,
    test_database env = Return r
    /\ get_test env = mkHTTPResponse 200 (Json r)
    /\ (length (collections r) <= 10)%nat
    /\ match db env with
       | None =>
         database r = py "⚠️  Available but not initialized"
         /\ collections r = []
       | Some d =>
         match name_or_connected d with
         | Raise e =>
           database r = py "❌ Error: " ++ take 50 (exc_str e)
           /\ collections r = []
         | Return _ =>
           match list_collection_names d with
           | Return names =>
             database r = py "✅ Connected & Working"
             /\ collections r = take 10 names
           | Raise e =>
             database r = py "⚠️  Connected but Error: " ++ take 50 (exc_str e)
             /\ collections r = []
           end
         end
       end.
Proof.
  unfold get_test, test_database, name_or_connected.
  destruct (db env) as [[attr names] |]; cbn [db_name list_collection_names].
  - destruct attr as [| v | e], names as [names | e'];
      eexists; (split; [reflexivity |]); (split; [reflexivity |]);
      cbn [collections]; (split; [| split; reflexivity]);
      first [ apply firstn_le_length | cbn; lia ].
  - eexists. repeat split. cbn. lia.
Qed.

(** ** Reservations *)

Section CreateReservationFacts.

Context {Reservation Store : Type}.
Variable ReservationSchema : ReservationCreate -> outcome PyException Reservation.
Variable create_document : string -> Reservation -> eff Store PyException pystr.

(** A body that validates has its party size within the bounds of the
    request model. *)
Lemma parse_ReservationCreate_bounds (raw : ReservationPayload)
      (payload : ReservationCreate) :
  parse_ReservationCreate raw = inr payload ->
  raw_party_size raw = Some (party_size payload)
  /\ 1 <= party_size payload <= 20.
Proof.
  unfold parse_ReservationCreate.
  destruct (raw_name raw), (raw_phone raw), (raw_date raw), (raw_time raw),
           (raw_party_size raw) as [k |]; try discriminate.
  destruct ((1 <=? k) && (k <=? 20)) eqn:Hk; [| discriminate].
  intros [= <-]. cbn. split; [reflexivity | lia].
Qed.

(** The handler answers with "ok" or raises [HTTPException] 400: nothing
    else leaves it. *)
Lemma create_reservation_outcomes (payload : ReservationCreate) (st : Store) :
  (exists inserted_id st',
      create_reservation ReservationSchema create_document payload st
      = (Return (mkCreated (py "ok") inserted_id), st'))
  \/ (exists e st',
         create_reservation ReservationSchema create_document payload st
         = (Raise (HTTPError (mkHTTPException 400 (exc_str e))), st')).
Proof.
  unfold create_reservation, try_except, mbind, eff_bind, lift, raise, mret,
    eff_ret.
  destruct (ReservationSchema payload) as [reservation | e]; [| right; eauto].
  destruct (create_document "reservation"%string reservation st)
    as [[inserted_id | e] st']; [left | right]; eauto.
Qed.

(** Status 400 is the handler's: it is sent only for a body that passed the
    request model, party size between 1 and 20 included. *)
Lemma post_reservation_400_validated (raw : ReservationPayload) (st : Store) :
  http_status (post_api_reservations ReservationSchema create_document raw st).1
  = 400 ->
  exists k, raw_party_size raw = Some k /\ 1 <= k <= 20.
Proof.
  unfold post_api_reservations.
  destruct (parse_ReservationCreate raw) as [fields | payload] eqn:Hparse.
  - cbn. discriminate.
  - intros _. exists (party_size payload).
    apply parse_ReservationCreate_bounds. exact Hparse.
Qed.

End CreateReservationFacts.




(** A valid body reaches the handler and is stored. *)
Example post_reservation_party_of_4 :
  post_api_reservations accept_payload append_document (payload_for 4) []
  = (mkHTTPResponse 200 (Json (mkCreated (py "ok") (py "0"))),
     [mkReservationCreate (py "Ada") (py "+33 1 23 45 67 89") (py "2025-06-01")
                          (py "20:30") 4 None None]).
Proof. vm_compute. reflexivity. Qed.

(** *** Listing *)

(** A document that carries ["_id"] leaves the loop with a string under
    ["id"] and without ["_id"]. *)
Lemma id_to_str_with_id (d : gmap string value) (v : value) :
  d !! "_id"%string = Some v ->
  id_to_str d !! "id"%string = Some (VStr (py_str v))
  /\ id_to_str d !! "_id"%string = None.
Proof.
  intros Hid. unfold id_to_str. rewrite Hid. split.
  - apply lookup_insert_eq.
  - rewrite lookup_insert_ne by discriminate. apply lookup_delete_eq.
Qed.

(** A document without ["_id"] is left as it is. *)
Lemma id_to_str_without_id (d : gmap string value) :
  d !! "_id"%string = None -> id_to_str d = d.
Proof. intros Hid. unfold id_to_str. rewrite Hid. reflexivity. Qed.

Lemma Forall_filter_keeps {A} (P Q : A -> Prop) `{!forall x, Decision (P x)}
      (l : list A) :
  Forall Q l -> Forall Q (filter P l).
Proof.
  induction 1 as [| x l Hx _ IH]; [constructor |].
  destruct (decide (P x)) as [HP | HP].
  - rewrite filter_cons_True by exact HP. constructor; assumption.
  - rewrite filter_cons_False by exact HP. exact IH.
Qed.

Section ListReservationsFacts.

Variable get_documents :
  string -> gmap string value -> Z -> outcome PyException (list (gmap string value)).

(** The handler returns the documents of the adapter, as many as it got,
    each through [id_to_str]; a failure of the adapter becomes status 500
    with its text. *)
Lemma list_reservations_items (limit : Z) :
  match get_documents "reservation"%string ∅ limit with
  | Return docs =>
    list_reservations get_documents limit = Return (mkListing (map id_to_str docs))
  | Raise e =>
    list_reservations get_documents limit
    = Raise (HTTPError (mkHTTPException 500 (exc_str e)))
  end.
Proof.
  unfold list_reservations.
  destruct (get_documents "reservation"%string ∅ limit); reflexivity.
Qed.

End ListReservationsFacts.

(** Every document that the adapter returns carries the identifier the
    store assigned, and there are at most [limit] of them. *)
Lemma get_documents_spec (st : StoreAdapter.DocumentStore) (collection : string)
      (filter_dict : gmap string value) (limit : Z)
      (docs : list (gmap string value)) :
  StoreAdapter.get_documents st collection filter_dict limit = Return docs ->
  (length docs <= Z.to_nat limit)%nat
  /\ Forall (fun d => exists hex, d !! "_id"%string = Some (VObjectId hex)) docs.
Proof.
  unfold StoreAdapter.get_documents.
  destruct (StoreAdapter.store_failure st); [discriminate |].
  intros [= <-]. split; [apply firstn_le_length |].
  apply Forall_take, Forall_filter_keeps, Forall_map, Forall_forall.
  intros sd _. exists (StoreAdapter.stored_id sd).
  unfold StoreAdapter.as_dict. apply lookup_insert_eq.
Qed.

Lemma jsonable_listing_decide (docs : list (gmap string value)) :
  bool_decide (Forall jsonable_document docs) = true
  <-> Forall jsonable_document docs.
Proof. apply bool_decide_eq_true. Qed.

(** A stored document whose fields can be encoded leaves the loop as a
    document that can be encoded: the identifier has become a string. *)
Lemma id_to_str_as_dict_jsonable (sd : StoreAdapter.StoredDocument) :
  jsonable_document (StoreAdapter.stored_fields sd) ->
  jsonable_document (id_to_str (StoreAdapter.as_dict sd)).
Proof.
  intros Hfields. unfold id_to_str, StoreAdapter.as_dict, jsonable_document.
  rewrite lookup_insert_eq, delete_insert_eq.
  apply map_Forall_insert_2; [reflexivity |].
  apply map_Forall_delete. exact Hfields.
Qed.

(** C4, as stated, fails for a negative N, which [limit: int] admits: the
    answer for [limit=-1] on an empty store is a normal one with no item,
    and no list has at most -1 items. *)
Lemma C4_counterexample_negative_limit :
  exists r,
    get_api_reservations (StoreAdapter.get_documents empty_store) (-1)
    = mkHTTPResponse 200 (Json r)
    /\ ~ (Z.of_nat (length (items r)) <= -1).
Proof.
  exists (mkListing []). split; [vm_compute; reflexivity | cbn; lia].
Qed.

(** C4 (amended): for every N >= 0 and every contents of the store,
    [GET /api/reservations?limit=N] returns at most N items, and every
    returned item has an [id] field that is a string and holds no raw
    identifier (no ["_id"], no [ObjectId] value).  The answer that returns
    no item is status 500: the store failed, or a document kept an
    [ObjectId] under a key other than ["_id"] and the listing could not be
    encoded.  A store that works and whose documents hold such values
    nowhere else is answered with 200. *)
Theorem C4_listing_limit_and_string_ids (st : StoreAdapter.DocumentStore) (N : Z) :
  0 <= N ->
  ((exists r,
       get_api_reservations (StoreAdapter.get_documents st) N
       = mkHTTPResponse 200 (Json r)
       /\ Z.of_nat (length (items r)) <= N
       /\ Forall (fun d => (exists s, d !! "id"%string = Some (VStr s))
                           /\ d !! "_id"%string = None
                           /\ jsonable_document d) (items r))
   \/ (http_status (get_api_reservations (StoreAdapter.get_documents st) N) = 500
       /\ forall r,
           http_body (get_api_reservations (StoreAdapter.get_documents st) N)
           <> Json r))
  /\ (StoreAdapter.store_failure st = None ->
      Forall (fun sd => jsonable_document (StoreAdapter.stored_fields sd))
             (default [] (StoreAdapter.store_collections st !! "reservation"%string)) ->
      http_status (get_api_reservations (StoreAdapter.get_documents st) N) = 200).
Proof.
  intros HN.
  pose proof (list_reservations_items (StoreAdapter.get_documents st) N) as Hrun.
  unfold get_api_reservations.
  destruct (StoreAdapter.get_documents st "reservation"%string ∅ N)
    as [docs | err] eqn:Hdocs; rewrite Hrun.
  - cbn [items]. split.
    + case_bool_decide as Hjson.
      * left. exists (mkListing (map id_to_str docs)).
        apply get_documents_spec in Hdocs as [Hlen Hids].
        cbn [items serve]. rewrite length_map.
        split; [reflexivity |]. split; [lia |].
        apply Forall_and. split; [| apply Forall_and; split; [| exact Hjson]].
        -- apply Forall_map. eapply Forall_impl; [exact Hids |].
           intros d [hex Hid]. cbn beta.
           destruct (id_to_str_with_id d _ Hid) as [Hstr _]. eauto.
        -- apply Forall_map, Forall_forall. intros d _.
           unfold id_to_str. destruct (d !! "_id"%string) eqn:Hid; [| exact Hid].
           rewrite lookup_insert_ne by discriminate. apply lookup_delete_eq.
      * right. cbn. split; [reflexivity | discriminate].
    + intros Hok Hfields.
      unfold StoreAdapter.get_documents in Hdocs. rewrite Hok in Hdocs.
      injection Hdocs as <-.
      rewrite bool_decide_eq_true_2; [reflexivity |].
      apply Forall_map, Forall_take, Forall_filter_keeps, Forall_map.
      eapply Forall_impl; [exact Hfields |].
      intros sd Hsd. apply id_to_str_as_dict_jsonable. exact Hsd.
  - split.
    + right. cbn. split; [reflexivity | discriminate].
    + intros Hok. unfold StoreAdapter.get_documents in Hdocs.
      rewrite Hok in Hdocs. discriminate Hdocs.
Qed.

(** Three reservations in the store, listed with limit 2. *)
Lemma C4_limit_2_of_three :
  ((exists r,
       get_api_reservations (StoreAdapter.get_documents three_reservations) 2
       = mkHTTPResponse 200 (Json r)
       /\ Z.of_nat (length (items r)) <= 2
       /\ Forall (fun d => (exists s, d !! "id"%string = Some (VStr s))
                           /\ d !! "_id"%string = None
                           /\ jsonable_document d) (items r))
   \/ (http_status
         (get_api_reservations (StoreAdapter.get_documents three_reservations) 2)
       = 500
       /\ forall r,
           http_body
             (get_api_reservations (StoreAdapter.get_documents three_reservations) 2)
           <> Json r))
  /\ (StoreAdapter.store_failure three_reservations = None ->
      Forall (fun sd => jsonable_document (StoreAdapter.stored_fields sd))
             (default [] (StoreAdapter.store_collections three_reservations
                          !! "reservation"%string)) ->
      http_status
        (get_api_reservations (StoreAdapter.get_documents three_reservations) 2)
      = 200).
Proof.
  apply (C4_listing_limit_and_string_ids three_reservations 2). lia.
Defined.

(** A document that keeps an [ObjectId] under another key: the handler
    returns it, and the listing cannot be sent. *)
Example listing_with_raw_reference :
  let st :=
    StoreAdapter.mkDocumentStore None
      (<["reservation"%string :=
           [StoreAdapter.mkStoredDocument (py "665f1c2a9b3e4d0012ab34c1")
              (<["table_ref"%string := VObjectId (py "665f1c2a9b3e4d0012ab34ff")]> ∅)]]>
         ∅) in
  (exists r, list_reservations (StoreAdapter.get_documents st) 5 = Return r
             /\ length (items r) = 1%nat)
  /\ get_api_reservations (StoreAdapter.get_documents st) 5
     = mkHTTPResponse 500 InternalServerError.
Proof.
  cbv zeta. split.
  - eexists. split; [vm_compute; reflexivity | reflexivity].
  - vm_compute. reflexivity.
Qed.

(** The identifiers of the two items that come back. *)
Example listing_two_of_three :
  match get_api_reservations (StoreAdapter.get_documents three_reservations) 2 with
  | mkHTTPResponse 200 (Json r) =>
    map (fun d => d !! "id"%string) (items r)
    = [Some (VStr (py "665f1c2a9b3e4d0012ab34c1"));
       Some (VStr (py "665f1c2a9b3e4d0012ab34c2"))]
  | _ => False
  end.
Proof. vm_compute. reflexivity. Qed.


(* ===================================================================== *)
(** * Further properties of the handlers *)
(* ===================================================================== *)

(** ** Keyword matching *)

Lemma startswith_prefix (k t : pystr) :
  startswith k t = true <-> exists b, t = k ++ b.
Proof.
  revert t. induction k as [| a k IH]; intros t; cbn.
  - split; [intros _; exists t; reflexivity | reflexivity].
  - destruct t as [| c t]; [split; [discriminate | intros [b Hb]; discriminate Hb] |].
    rewrite andb_true_iff, N.eqb_eq, IH. split.
    + intros [-> [b ->]]. exists b. reflexivity.
    + intros [b [= -> ->]]. split; [reflexivity | exists b; reflexivity].
Qed.

(** [k in t] holds exactly when [t] is some text, then [k], then some
    text. *)
Lemma contains_infix (k t : pystr) :
  contains k t = true <-> exists a b, t = a ++ k ++ b.
Proof.
  induction t as [| c t IH].
  - cbn. rewrite orb_false_r, startswith_prefix. split.
    + intros [b Hb]. exists [], b. exact Hb.
    + intros (a & b & Hab). destruct a; [exists b; exact Hab | discriminate Hab].
  - cbn [contains]. rewrite orb_true_iff, startswith_prefix, IH. split.
    + intros [[b Hb] | (a & b & Hab)].
      * exists [], b. exact Hb.
      * exists (c :: a), b. rewrite Hab. reflexivity.
    + intros (a & b & Hab). destruct a as [| c' a].
      * left. exists b. exact Hab.
      * right. injection Hab as _ Hab. exists a, b. exact Hab.
Qed.

(** A keyword group matches a text exactly when one of its keywords occurs
    somewhere inside it, whatever surrounds the occurrence (a longer word
    that contains the keyword matches as well). *)
Theorem any_in_occurrence (keywords : list pystr) (t : pystr) :
  any_in keywords t = true
  <-> exists k a b, In k keywords /\ t = a ++ k ++ b.
Proof.
  unfold any_in. rewrite existsb_exists. split.
  - intros (k & Hk & Hin). apply contains_infix in Hin as (a & b & Hab). eauto.
  - intros (k & a & b & Hk & Hab). exists k. split; [exact Hk |].
    apply contains_infix. eauto.
Qed.

(** ** The responder *)

(** The response is a function of which keyword groups match: two texts
    that match the same groups get the same reply, the same suggestions
    and the same (absent) reservation hint. *)
Theorem same_groups_same_response (lower : pystr -> pystr) (t1 t2 : pystr) :
  any_in wine_keywords (lower t1) = any_in wine_keywords (lower t2) ->
  any_in steak_keywords (lower t1) = any_in steak_keywords (lower t2) ->
  any_in vegan_keywords (lower t1) = any_in vegan_keywords (lower t2) ->
  any_in dessert_keywords (lower t1) = any_in dessert_keywords (lower t2) ->
  any_in booking_keywords (lower t1) = any_in booking_keywords (lower t2) ->
  simple_recommender lower t1 = simple_recommender lower t2.
Proof.
  intros Hw Hs Hv Hd Hb. unfold simple_recommender.
  rewrite Hw, Hs, Hv, Hd, Hb. reflexivity.
Qed.

(** Two ways of asking about wine. *)
Lemma same_groups_wine :
  simple_recommender ascii_lower (py "Which WINE goes with fish?")
  = simple_recommender ascii_lower (py "ask the sommelier").
Proof.
  apply (same_groups_same_response ascii_lower
           (py "Which WINE goes with fish?") (py "ask the sommelier"));
    vm_compute; reflexivity.
Defined.

(** The suggestions list is empty exactly when none of the four dish and
    wine groups matches (a booking keyword alone suggests nothing), and it
    never holds more than five entries. *)
Theorem suggestions_empty_iff (lower : pystr -> pystr) (text : pystr) :
  (suggestions (simple_recommender lower text) = []
   <-> any_in wine_keywords (lower text) = false
       /\ any_in steak_keywords (lower text) = false
       /\ any_in vegan_keywords (lower text) = false
       /\ any_in dessert_keywords (lower text) = false)
  /\ (length (suggestions (simple_recommender lower text)) <= 5)%nat.
Proof.
  rewrite suggestions_by_groups.
  destruct (any_in wine_keywords (lower text)),
           (any_in steak_keywords (lower text)),
           (any_in vegan_keywords (lower text)),
           (any_in dessert_keywords (lower text));
    (split; [split; [intros H; first [discriminate H | repeat split]
                    | intros (H1 & H2 & H3 & H4);
                      first [reflexivity | discriminate]]
            | cbn [app length]; lia]).
Qed.

(** Whitespace around the reply: it never ends with whitespace, and it
    begins with a space exactly when a single keyword group matches and
    that group is not the wine group. *)
Theorem reply_whitespace (lower : pystr -> pystr) (text : pystr) :
  (startswith (py " ") (reply (simple_recommender lower text)) = true
   <-> any_in wine_keywords (lower text) = false
       /\ length (matched_fragments (lower text)) = 1%nat)
  /\ rstrip (reply (simple_recommender lower text))
     = reply (simple_recommender lower text).
Proof.
  rewrite reply_by_fragments. unfold matched_fragments.
  by_keyword_groups (lower text);
    (split;
     [ split;
       [ intros H; vm_compute in H; first [discriminate H | split; reflexivity]
       | intros [H1 H2];
         first [ discriminate H1
               | vm_compute in H2; discriminate H2
               | vm_compute; reflexivity ] ]
     | vm_compute; reflexivity ]).
Qed.

(** ** The chat endpoint *)

(** Only the last user message counts: whatever was said before it, and
    whatever messages of other roles follow it, the answer is the
    responder's answer to that message. *)
Theorem chat_history_irrelevant (lower : pystr -> pystr)
        (pre post : list ChatMessage) (m : ChatMessage) :
  role m = py "user" ->
  Forall (fun x => role x <> py "user") post ->
  chat_endpoint lower (mkChatRequest (pre ++ m :: post))
  = Return (simple_recommender lower (content m))
  /\ chat_endpoint lower (mkChatRequest (pre ++ m :: post))
     = chat_endpoint lower (mkChatRequest [m]).
Proof.
  intros Hm Hpost.
  assert (Hrun : forall before after,
             Forall (fun x => role x <> py "user") after ->
             chat_endpoint lower (mkChatRequest (before ++ m :: after))
             = Return (simple_recommender lower (content m))).
  { intros before after Hafter. unfold chat_endpoint, last_text. cbn [messages].
    rewrite bool_decide_eq_false_2
      by (intros Hnil; apply app_eq_nil in Hnil as [_ Hnil]; discriminate Hnil).
    rewrite (user_texts_split _ _ _ Hm Hafter).
    rewrite bool_decide_eq_true_2
      by (intros Hnil; apply app_eq_nil in Hnil as [_ Hnil]; discriminate Hnil).
    rewrite last_item_snoc. reflexivity. }
  split; [apply Hrun; exact Hpost |].
  rewrite (Hrun pre post Hpost). symmetry. apply (Hrun [] []). constructor.
Qed.

(** A conversation about dessert, continued by the assistant. *)
Lemma chat_history_dessert :
  chat_endpoint ascii_lower
    (mkChatRequest
       ([mkChatMessage (py "user") (py "a table please");
         mkChatMessage (py "assistant") (py "For when?")]
        ++ mkChatMessage (py "user") (py "Something sweet")
        :: [mkChatMessage (py "assistant") (py "Of course.")]))
  = Return (simple_recommender ascii_lower (py "Something sweet")).
Proof.
  refine (proj1 (chat_history_irrelevant ascii_lower _ _
                   (mkChatMessage (py "user") (py "Something sweet")) _ _)).
  - reflexivity.
  - repeat constructor. discriminate.
Defined.

(** ** Creating a reservation *)

Section CreateReservationRoutes.

Context {Reservation Store : Type}.
Variable ReservationSchema : ReservationCreate -> outcome PyException Reservation.
Variable create_document : string -> Reservation -> eff Store PyException pystr.

(** [POST /api/reservations] answers 200, 400 or 422 and nothing else: a
    failure of the schema or of the store never surfaces as a 500.  With
    200 comes the "ok" body; with 422 the store is as it was. *)
Theorem post_reservation_statuses (raw : ReservationPayload) (st : Store) :
  let result := post_api_reservations ReservationSchema create_document raw st in
  (http_status result.1 = 200
   /\ exists inserted_id,
       http_body result.1 = Json (mkCreated (py "ok") inserted_id))
  \/ (http_status result.1 = 400 /\ exists text, http_body result.1 = Detail text)
  \/ (http_status result.1 = 422 /\ result.2 = st
      /\ exists fields, http_body result.1 = ValidationErrors fields).
Proof.
  cbv zeta. unfold post_api_reservations.
  destruct (parse_ReservationCreate raw) as [fields | payload].
  - right. right. cbn. eauto.
  - destruct (create_reservation_outcomes ReservationSchema create_document
                payload st) as [(i & st' & ->) | (e & st' & ->)].
    + left. cbn. eauto.
    + right. left. cbn. eauto.
Qed.

(** A body that lacks a required field, or whose party size is below 1
    or above 20, is answered with 422 whatever the schema and the store
    are: the handler does not run and the store is as it was. *)
Theorem post_reservation_rejected_body (raw : ReservationPayload) (st : Store) :
  raw_name raw = None \/ raw_phone raw = None \/ raw_date raw = None
  \/ raw_time raw = None \/ raw_party_size raw = None
  \/ (exists k, raw_party_size raw = Some k /\ (k < 1 \/ 20 < k)) ->
  http_status (post_api_reservations ReservationSchema create_document raw st).1
  = 422
  /\ (post_api_reservations ReservationSchema create_document raw st).2 = st
  /\ exists fields,
      http_body (post_api_reservations ReservationSchema create_document raw st).1
      = ValidationErrors fields.
Proof.
  intros Hbad.
  assert (Hparse : parse_ReservationCreate raw = inl (rejected_fields raw)).
  { unfold parse_ReservationCreate.
    destruct (raw_name raw), (raw_phone raw), (raw_date raw), (raw_time raw),
             (raw_party_size raw) as [k |]; try reflexivity;
      try (destruct Hbad as [H | [H | [H | [H | [H | (k' & H & _)]]]]];
           discriminate H).
    destruct Hbad as [H | [H | [H | [H | [H | (k' & H & Hk)]]]]];
      try discriminate H.
    injection H as <-.
    replace ((1 <=? k) && (k <=? 20)) with false by lia. reflexivity. }
  unfold post_api_reservations. rewrite Hparse. cbn. eauto.
Qed.

(** When the canonical schema refuses a body that the request model
    accepted, the answer is 400 with the schema's message, and nothing is
    written: the store is not called. *)
Theorem post_reservation_schema_failure (raw : ReservationPayload)
        (payload : ReservationCreate) (message : pystr) (st : Store) :
  parse_ReservationCreate raw = inr payload ->
  ReservationSchema payload = Raise (Exception message) ->
  post_api_reservations ReservationSchema create_document raw st
  = (mkHTTPResponse 400 (Detail message), st).
Proof.
  intros Hparse Hschema. unfold post_api_reservations. rewrite Hparse.
  unfold create_reservation, try_except, mbind, eff_bind, lift.
  rewrite Hschema. reflexivity.
Qed.

(** A failure of the store on insertion is answered with 400 and the
    store's message (not with 500), in the state the store was left. *)
Theorem post_reservation_store_failure (raw : ReservationPayload)
        (payload : ReservationCreate) (reservation : Reservation)
        (message : pystr) (st st' : Store) :
  parse_ReservationCreate raw = inr payload ->
  ReservationSchema payload = Return reservation ->
  create_document "reservation"%string reservation st
  = (Raise (Exception message), st') ->
  post_api_reservations ReservationSchema create_document raw st
  = (mkHTTPResponse 400 (Detail message), st').
Proof.
  intros Hparse Hschema Hstore. unfold post_api_reservations. rewrite Hparse.
  unfold create_reservation, try_except, mbind, eff_bind, lift.
  rewrite Hschema, Hstore. reflexivity.
Qed.

End CreateReservationRoutes.

(** A body without a name, on an empty store. *)
Lemma rejected_body_without_name :
  http_status
    (post_api_reservations accept_payload append_document
       (mkReservationPayload None (Some (py "+33 1 23 45 67 89"))
                             (Some (py "2025-06-01")) (Some (py "20:30"))
                             (Some 4) None None) []).1
  = 422
  /\ (post_api_reservations accept_payload append_document
        (mkReservationPayload None (Some (py "+33 1 23 45 67 89"))
                              (Some (py "2025-06-01")) (Some (py "20:30"))
                              (Some 4) None None) []).2 = []
  /\ exists fields,
      http_body
        (post_api_reservations accept_payload append_document
           (mkReservationPayload None (Some (py "+33 1 23 45 67 89"))
                                 (Some (py "2025-06-01")) (Some (py "20:30"))
                                 (Some 4) None None) []).1
      = ValidationErrors fields.
Proof.
  apply (post_reservation_rejected_body accept_payload append_document
           (mkReservationPayload None (Some (py "+33 1 23 45 67 89"))
                                 (Some (py "2025-06-01")) (Some (py "20:30"))
                                 (Some 4) None None) []).
  left. reflexivity.
Defined.

(** A party of 8 that the canonical schema refuses. *)
Lemma schema_failure_party_of_8 :
  post_api_reservations reject_payload append_document (payload_for 8) []
  = (mkHTTPResponse 400 (Detail (py "1 validation error for Reservation")), []).
Proof.
  apply (post_reservation_schema_failure reject_payload append_document
           (payload_for 8)
           (mkReservationCreate (py "Ada") (py "+33 1 23 45 67 89")
                                (py "2025-06-01") (py "20:30") 8 None None)
           (py "1 validation error for Reservation") []).
  - reflexivity.
  - reflexivity.
Defined.

(** A party of 8 while the store is down. *)
Lemma store_failure_party_of_8 :
  post_api_reservations accept_payload failing_insert (payload_for 8) []
  = (mkHTTPResponse 400 (Detail (py "Database not available")), []).
Proof.
  apply (post_reservation_store_failure accept_payload failing_insert
           (payload_for 8)
           (mkReservationCreate (py "Ada") (py "+33 1 23 45 67 89")
                                (py "2025-06-01") (py "20:30") 8 None None)
           (mkReservationCreate (py "Ada") (py "+33 1 23 45 67 89")
                                (py "2025-06-01") (py "20:30") 8 None None)
           (py "Database not available") [] []).
  - reflexivity.
  - reflexivity.
  - reflexivity.
Defined.

(** ** Listing reservations *)

Lemma id_to_str_drops_raw_id (d : gmap string value) :
  id_to_str d !! "_id"%string = None.
Proof.
  unfold id_to_str. destruct (d !! "_id"%string) as [v |] eqn:Hid; [| exact Hid].
  rewrite lookup_insert_ne by discriminate. apply lookup_delete_eq.
Qed.

(** The loop of [list_reservations] on one document, key by key: ["_id"]
    is gone, ["id"] holds the string of the former ["_id"] (replacing any
    ["id"] the document had) or, without ["_id"], what it held before, and
    every other key is untouched. *)
Theorem id_to_str_lookup (d : gmap string value) :
  id_to_str d !! "_id"%string = None
  /\ id_to_str d !! "id"%string
     = match d !! "_id"%string with
       | Some v => Some (VStr (py_str v))
       | None => d !! "id"%string
       end
  /\ (forall k : string,
         k <> "id"%string -> k <> "_id"%string -> id_to_str d !! k = d !! k).
Proof.
  split; [apply id_to_str_drops_raw_id |].
  unfold id_to_str. destruct (d !! "_id"%string) as [v |] eqn:Hid.
  - split.
    + apply lookup_insert_eq.
    + intros k Hk Hk'.
      rewrite lookup_insert_ne by congruence.
      apply lookup_delete_ne. congruence.
  - split; reflexivity.
Qed.

(** Running the conversion on a document that went through it changes
    nothing more: a document that occurs twice in the list, or a second
    pass over the list, is harmless. *)
Theorem id_to_str_idempotent (d : gmap string value) :
  id_to_str (id_to_str d) = id_to_str d.
Proof.
  apply id_to_str_without_id, id_to_str_drops_raw_id.
Qed.

(** Whatever the adapter is.  When it raises, the answer is 500 with the
    text of the failure.  When it returns documents, the handler returns
    as many items, in the same order, each the converted document and none
    with a raw ["_id"]: the handler neither drops nor caps anything, the
    limit is the adapter's to apply.  That listing is the body of a 200
    when every converted document can be encoded as JSON; when one of
    them still holds an [ObjectId], under a key that the loop does not
    convert, the answer is the framework's 500. *)
Theorem get_reservations_any_adapter
        (get_documents : string -> gmap string value -> Z ->
                         outcome PyException (list (gmap string value)))
        (limit : Z) :
  match get_documents "reservation"%string ∅ limit with
  | Return docs =>
    exists r,
      list_reservations get_documents limit = Return r
      /\ length (items r) = length docs
      /\ (forall i d, docs !! i = Some d -> items r !! i = Some (id_to_str d))
      /\ Forall (fun d => d !! "_id"%string = None) (items r)
      /\ (Forall jsonable_document (items r) ->
          get_api_reservations get_documents limit = mkHTTPResponse 200 (Json r))
      /\ (~ Forall jsonable_document (items r) ->
          get_api_reservations get_documents limit
          = mkHTTPResponse 500 InternalServerError)
  | Raise e =>
    get_api_reservations get_documents limit
    = mkHTTPResponse 500 (Detail (exc_str e))
  end.
Proof.
  pose proof (list_reservations_items get_documents limit) as Hrun.
  unfold get_api_reservations.
  destruct (get_documents "reservation"%string ∅ limit) as [docs | e];
    rewrite Hrun; [| reflexivity].
  exists (mkListing (map id_to_str docs)). cbn [items].
  split; [reflexivity |]. split; [apply length_map |]. split; [| split; [| split]].
  - intros i d Hd. change (map id_to_str docs) with (id_to_str <$> docs).
    rewrite list_lookup_fmap, Hd. reflexivity.
  - apply Forall_map, Forall_forall. intros d _.
    apply id_to_str_drops_raw_id.
  - intros Hjson. rewrite bool_decide_eq_true_2 by exact Hjson. reflexivity.
  - intros Hraw. rewrite bool_decide_eq_false_2 by exact Hraw. reflexivity.
Qed.

(** ** The diagnostic endpoint *)

(** Reading a field of the response after the updates made to it. *)
Ltac read_fields :=
  cbn [backend database database_url database_name connection_status
       collections set_database set_database_url set_database_name
       set_connection_status set_collections].

Example status_prefix_lengths :
  length (py "⚠️  Connected but Error: ") = 25%nat
  /\ length (py "❌ Error: ") = 9%nat.
Proof. split; reflexivity. Qed.

(** The status line of [GET /test]: the backend is always reported as
    running, the initial "Not Available" never survives to the response,
    and the status text has at most 75 code points however long the
    message of a failure is. *)
Theorem test_database_status_line (env : Environment) :
  exists r : Diagnostics,
    test_database env = Return r
    /\ backend r = py "✅ Running"
    /\ database r <> py "❌ Not Available"
    /\ (length (database r) <= 75)%nat.
Proof.
  destruct status_prefix_lengths as [Hwarn Herr].
  unfold test_database, name_or_connected.
  destruct (db env) as [[attr names] |]; cbn [db_name list_collection_names].
  - destruct attr as [| v | e], names as [names | e'];
      eexists; (split; [reflexivity |]); read_fields;
      (split; [reflexivity |]);
      (split;
       [ vm_compute; discriminate
       | first [ vm_compute; lia
               | rewrite length_app, ?Hwarn, ?Herr;
                 pose proof (firstn_le_length 50 (exc_str e));
                 lia
               | rewrite length_app, ?Hwarn, ?Herr;
                 pose proof (firstn_le_length 50 (exc_str e'));
                 lia ] ]).
  - eexists. split; [reflexivity |]. read_fields.
    split; [reflexivity |]. split; [vm_compute; discriminate | vm_compute; lia].
Qed.

(** How far [test_database] got is visible in the response: the URL line is
    filled in as soon as there is a handle, "Set" only for a variable that
    is set and not empty; the connection is reported as "Connected",
    with a name, exactly when reading the name of the handle did not
    raise; and collections are listed only for a connected handle. *)
Theorem test_database_progress (env : Environment) :
  exists r : Diagnostics,
    test_database env = Return r
    /\ (is_Some (database_url r) <-> is_Some (db env))
    /\ (database_url r = Some (py "✅ Set")
        <-> is_Some (db env) /\ truthy (getenv_DATABASE_URL env) = true)
    /\ (connection_status r = py "Connected"
        <-> exists d v, db env = Some d /\ name_or_connected d = Return v
                        /\ database_name r = Some v)
    /\ (connection_status r = py "Connected"
        \/ connection_status r = py "Not Connected"
           /\ database_name r = None /\ collections r = []).
Proof.
  unfold test_database, name_or_connected.
  destruct env as [[[attr names] |] url];
    cbn [db getenv_DATABASE_URL db_name list_collection_names].
  - destruct attr as [| v | e], names as [names | e'];
      eexists; (split; [reflexivity |]);
      read_fields;
      (split; [split; intros _; eexists; reflexivity |]);
      (split;
       [ destruct (truthy url); split;
         [ intros H; first [ split; [eexists; reflexivity | reflexivity]
                           | vm_compute in H; discriminate H ]
         | intros [_ H]; first [ reflexivity | discriminate H ]
         | intros H; first [ split; [eexists; reflexivity | reflexivity]
                           | vm_compute in H; discriminate H ]
         | intros [_ H]; first [ reflexivity | discriminate H ] ]
       | ]);
      (split;
       [ split;
         [ intros H;
           first [ eexists _, _; repeat split; reflexivity
                 | vm_compute in H; discriminate H ]
         | intros (d & w & Hd & Hw & _);
           first [ reflexivity
                 | injection Hd as <-; discriminate Hw ] ]
       | first [ left; reflexivity | right; repeat split; reflexivity ] ]).
  - eexists. split; [reflexivity |].
    read_fields.
    split; [split; intros [? [=]] |].
    split; [split; [intros [=] | intros [[? [=]] _]] |].
    split; [| right; repeat split; reflexivity].
    split; [intros H; vm_compute in H; discriminate H
           | intros (d & w & [=] & _)].
Qed.
